(** * gptme bootstrap ([gptme/init.py]): a shallow embedding and its properties

    The module under study is the one-time bootstrap of the assistant:
    [init], [_load_readline_history] and [ask_for_api_key].  These are
    effectful Python functions; they are embedded here in a small
    state-and-exception monad over an explicit [World].

    Python [str] values are modelled as [string] (characters below 256),
    [str | None] as [option string]. *)

From Stdlib Require Import String Ascii ZArith Bool Lia.
From stdpp Require Import gmap strings list fin_maps.

Local Open Scope string_scope.
Local Open Scope list_scope.

(** ** Python string helpers *)

Module Py.

(** Truthiness of a [str]: only the empty string is falsy. *)
Definition str_truthy (s : string) : bool :=
  match s with
  | EmptyString => false
  | String _ _ => true
  end.

(** Truthiness of a [str | None]: [None] and [""] are falsy. *)
Definition truthy (o : option string) : bool :=
  match o with
  | Some s => str_truthy s
  | None => false
  end.

(** [str.isspace] on one character, for code points below 256:
    TAB..CR, FS..US, SPACE, NEL and NBSP. *)
Definition is_space (a : ascii) : bool :=
  let n := nat_of_ascii a in
  (((9 <=? n) && (n <=? 13)) || ((28 <=? n) && (n <=? 32))
   || (n =? 133) || (n =? 160))%nat.

Fixpoint lstrip (s : string) : string :=
  match s with
  | EmptyString => EmptyString
  | String a s' => if is_space a then lstrip s' else s
  end.

Fixpoint rstrip (s : string) : string :=
  match s with
  | EmptyString => EmptyString
  | String a s' =>
      match rstrip s' with
      | EmptyString => if is_space a then EmptyString else String a EmptyString
      | r => String a r
      end
  end.

(** [s.strip()] with no argument. *)
Definition strip (s : string) : string := lstrip (rstrip s).

(** Every character of [s] is whitespace ([""] included). *)
Fixpoint all_space (s : string) : bool :=
  match s with
  | EmptyString => true
  | String a s' => is_space a && all_space s'
  end.

(** [s.startswith(p)]. *)
Definition startswith (s p : string) : bool := String.prefix p s.

End Py.

(** ** The world the bootstrap runs in *)

(** Exceptions that occur in the modelled code. *)
Inductive Exn : Type :=
| ValueError (msg : string)
| EOFError
| FileNotFoundError (path : string)
| RuntimeError (msg : string).

(** Callables registered with [atexit]. *)
Inductive ExitHandler : Type :=
| WriteHistoryFile (path : string).

(** Every observable action, in the order it happens. *)
Inductive Event : Type :=
| LogWarning (msg : string)
| LogDebug (msg : string)
| Print (text : string)
| Input (prompt line : string)
| LoadDotenv
| LoadConfig
| SetConfigValue (key value : string)
| InitLlm (provider : string)
| SetDefaultModel (model : string)
| SetAutoHistory (enabled : bool)
| SetHistoryLength (n : Z)
| ReadHistoryFile (path : string)
| AddHistory (line : string)
| AtexitRegister (h : ExitHandler)
| RegisterTabcomplete
| InitTools.

(** State of the [readline] module.  In CPython auto history is enabled and
    the history length is -1 (unlimited) when the module is imported. *)
Record Readline : Type := mkReadline {
  auto_history : bool;
  history_length : Z;
  history : list string;
}.

Record World : Type := mkWorld {
  init_done : bool;                      (* the module global _init_done *)
  trace : list Event;                    (* actions so far, oldest first *)
  stdin : list string;                   (* lines still to be typed *)
  tty : bool;                            (* stdin and stdout are terminals *)
  config_store : gmap string string;     (* the persisted configuration *)
  files : gmap string (list string);     (* history files, as lists of lines *)
  readline : Readline;
  atexit_handlers : list ExitHandler;    (* in registration order *)
  llm_provider : option string;          (* backend chosen by init_llm *)
  default_model : option string;         (* set by set_default_model *)
}.

Definition set_init_done (b : bool) (w : World) : World :=
  mkWorld b (trace w) (stdin w) (tty w) (config_store w) (files w)
          (readline w) (atexit_handlers w) (llm_provider w) (default_model w).

Definition emit (e : Event) (w : World) : World :=
  mkWorld (init_done w) (trace w ++ [e]) (stdin w) (tty w) (config_store w)
          (files w) (readline w) (atexit_handlers w) (llm_provider w)
          (default_model w).

Definition set_stdin (l : list string) (w : World) : World :=
  mkWorld (init_done w) (trace w) l (tty w) (config_store w) (files w)
          (readline w) (atexit_handlers w) (llm_provider w) (default_model w).

Definition set_config_store (c : gmap string string) (w : World) : World :=
  mkWorld (init_done w) (trace w) (stdin w) (tty w) c (files w)
          (readline w) (atexit_handlers w) (llm_provider w) (default_model w).

Definition set_files (f : gmap string (list string)) (w : World) : World :=
  mkWorld (init_done w) (trace w) (stdin w) (tty w) (config_store w) f
          (readline w) (atexit_handlers w) (llm_provider w) (default_model w).

Definition set_readline (r : Readline) (w : World) : World :=
  mkWorld (init_done w) (trace w) (stdin w) (tty w) (config_store w) (files w)
          r (atexit_handlers w) (llm_provider w) (default_model w).

Definition set_atexit_handlers (hs : list ExitHandler) (w : World) : World :=
  mkWorld (init_done w) (trace w) (stdin w) (tty w) (config_store w) (files w)
          (readline w) hs (llm_provider w) (default_model w).

Definition set_llm_provider (p : option string) (w : World) : World :=
  mkWorld (init_done w) (trace w) (stdin w) (tty w) (config_store w) (files w)
          (readline w) (atexit_handlers w) p (default_model w).

Definition set_default_model_field (m : option string) (w : World) : World :=
  mkWorld (init_done w) (trace w) (stdin w) (tty w) (config_store w) (files w)
          (readline w) (atexit_handlers w) (llm_provider w) m.

(** ** State and exception monad *)

Inductive Result (A : Type) : Type :=
| Ok (a : A)
| Raise (e : Exn).
Arguments Ok {A} a.
Arguments Raise {A} e.

Definition M (A : Type) : Type := World -> Result A * World.

Definition ret {A} (a : A) : M A := fun w => (Ok a, w).

Definition bind {A B} (m : M A) (k : A -> M B) : M B :=
  fun w =>
    match m w with
    | (Ok a, w') => k a w'
    | (Raise e, w') => (Raise e, w')
    end.

Definition raise {A} (e : Exn) : M A := fun w => (Raise e, w).

Definition modify (f : World -> World) : M unit := fun w => (Ok tt, f w).

Definition gets {A} (f : World -> A) : M A := fun w => (Ok (f w), w).

(** [try: m except FileNotFoundError: h] *)
Definition try_except_FileNotFoundError {A} (m : M A) (h : M A) : M A :=
  fun w =>
    match m w with
    | (Raise (FileNotFoundError _), w') => h w'
    | r => r
    end.

#[export] Instance M_ret : MRet M := @ret.
#[export] Instance M_bind : MBind M := fun A B k m => bind m k.

(** [for x in xs: body(x)] *)
Fixpoint for_each {A} (xs : list A) (body : A -> M unit) : M unit :=
  match xs with
  | [] => ret tt
  | x :: xs' => body x;; for_each xs' body
  end.

(** The outcome and the final world of a run. *)
Definition outcome {A} (r : Result A * World) : Result A := fst r.
Definition world_of {A} (r : Result A * World) : World := snd r.

(** ** The [readline] module, after the CPython documentation *)

Module Readline.

Definition update (f : Readline -> Readline) : M unit :=
  modify (fun w => set_readline (f (readline w)) w).

(** [readline.set_auto_history(enabled)] *)
Definition set_auto_history (enabled : bool) : M unit :=
  modify (emit (SetAutoHistory enabled));;
  update (fun r => mkReadline enabled (history_length r) (history r)).

(** [readline.set_history_length(n)]: only records the number of lines
    that [write_history_file] keeps in the file; the list held in memory
    is not shortened. *)
Definition set_history_length (n : Z) : M unit :=
  modify (emit (SetHistoryLength n));;
  update (fun r => mkReadline (auto_history r) n (history r)).

Definition append_line (line : string) (r : Readline) : Readline :=
  mkReadline (auto_history r) (history_length r) (history r ++ [line]).

(** [readline.add_history(line)]: appends, unconditionally. *)
Definition add_history (line : string) : M unit :=
  modify (emit (AddHistory line));;
  update (append_line line).

(** [readline.read_history_file(path)]: appends the lines of the file to
    the history; [FileNotFoundError] when there is no such file. *)
Definition read_history_file (path : string) : M unit :=
  modify (emit (ReadHistoryFile path));;
  fs ← gets files;
  match fs !! path with
  | None => raise (FileNotFoundError path)
  | Some lines =>
      update (fun r => mkReadline (auto_history r) (history_length r)
                                  (history r ++ lines))
  end.

(** The last [n] elements of a list (all of it when it is shorter). *)
Definition keep_last {A} (n : nat) (l : list A) : list A :=
  drop (length l - n) l.

(** What [write_history_file] leaves in the file: the whole history,
    truncated to its last [history_length] lines unless that is
    negative. *)
Definition saved_lines (r : Readline) : list string :=
  if (history_length r <? 0)%Z then history r
  else keep_last (Z.to_nat (history_length r)) (history r).

(** [readline.write_history_file(path)], as a world transformer: it is
    what the [atexit] handler runs. *)
Definition write_history_file (path : string) (w : World) : World :=
  set_files (<[path := saved_lines (readline w)]> (files w)) w.

(** What reading a line through readline does to the history: with auto
    history on, a non-empty line that differs from the latest entry is
    appended. *)
Definition auto_add (line : string) (r : Readline) : Readline :=
  if auto_history r && Py.str_truthy line
     && negb (bool_decide (last (history r) = Some line))
  then append_line line r
  else r.

End Readline.

(** [input(prompt)]: takes the next line typed; [EOFError] at end of input.
    The module imports [readline], so on a terminal the line is read through
    it and is subject to auto history. *)
Definition input (prompt : string) : M string :=
  pending ← gets stdin;
  match pending with
  | [] => raise EOFError
  | line :: rest =>
      modify (set_stdin rest);;
      modify (emit (Input prompt line));;
      on_tty ← gets tty;
      (if on_tty : bool then Readline.update (Readline.auto_add line) else ret tt);;
      ret line
  end.

(** [print(text)] *)
Definition print (text : string) : M unit := modify (emit (Print text)).

Definition logger_warning (msg : string) : M unit := modify (emit (LogWarning msg)).
Definition logger_debug (msg : string) : M unit := modify (emit (LogDebug msg)).

(** [atexit.register(readline.write_history_file, path)] *)
Definition atexit_register (h : ExitHandler) : M unit :=
  modify (emit (AtexitRegister h));;
  modify (fun w => set_atexit_handlers (atexit_handlers w ++ [h]) w).

Definition run_handler (h : ExitHandler) (w : World) : World :=
  match h with
  | WriteHistoryFile path => Readline.write_history_file path w
  end.

(** Normal interpreter exit: the registered handlers run, last registered
    first. *)
Definition run_atexit (w : World) : World :=
  fold_left (fun w h => run_handler h w) (rev (atexit_handlers w)) w.

(** ** A fresh process *)

(** The world when the interpreter has just imported the module: [_init_done]
    is false, nothing has happened, readline is in its initial state, no exit
    handler is registered and no backend or model is set. *)
Definition fresh_world (config : gmap string string)
    (fs : gmap string (list string)) (typed : list string) (on_tty : bool)
  : World :=
  mkWorld false [] typed on_tty config fs (mkReadline true (-1) []) [] None None.

(** ** An example installation

    Concrete values for what [init.py] imports, used to evaluate runs on
    concrete inputs. *)

Module Example.

Definition config_path : string := "/home/user/.config/gptme/config.toml".

Definition history_file : string := "/home/user/.local/share/gptme/history".

(** Modelled from the spec: an example of the recommended-model table, "a
    pure function of Provider". *)
Definition recommended_model (provider : string) : string :=
  if String.eqb provider "openai" then "gpt-4-turbo"
  else "claude-3-5-sonnet-20240620".

(** [n] distinct one-character lines. *)
Definition entries (n : nat) : list string :=
  (fun i => String (ascii_of_nat (33 + i)) EmptyString) <$> seq 0 n.

End Example.

(** ** The [logging] module, as far as [init_logging] uses it

    After the CPython documentation: [basicConfig] configures the root
    logger only when it has no handler yet; [getLogger(name).setLevel]
    records a level for the named logger. *)

Module Logging.

Inductive Level : Type := NOTSET | DEBUG | INFO | WARNING | ERROR | CRITICAL.

Record State : Type := mkState {
  root_level : Level;
  root_handlers : nat;                   (* handlers on the root logger *)
  logger_levels : gmap string Level;     (* levels set on named loggers *)
}.

(** The logging state at interpreter start: root at WARNING, no handler. *)
Definition initial : State := mkState WARNING 0 ∅.

(** [logging.basicConfig(level=level)] *)
Definition basicConfig (level : Level) (s : State) : State :=
  match root_handlers s with
  | O => mkState level 1 (logger_levels s)
  | S _ => s
  end.

(** [logging.getLogger(name).setLevel(level)] *)
Definition setLevel (name : string) (level : Level) (s : State) : State :=
  mkState (root_level s) (root_handlers s) (<[name := level]> (logger_levels s)).

End Logging.

(** [init_logging(verbose)] of [init.py]. *)
Definition init_logging (verbose : bool) (s : Logging.State) : Logging.State :=
  let s := Logging.basicConfig
             (if verbose then Logging.DEBUG else Logging.INFO) s in
  Logging.setLevel "httpx" Logging.WARNING s.

(** ** Whitespace at the ends of a string *)

Definition starts_with_space (s : string) : bool :=
  match s with
  | EmptyString => false
  | String a _ => Py.is_space a
  end.

Fixpoint ends_with_space (s : string) : bool :=
  match s with
  | EmptyString => false
  | String a EmptyString => Py.is_space a
  | String _ s' => ends_with_space s'
  end.

(** ** The collaborators of [init.py] *)

Section Bootstrap.

(** [config_path], imported from [gptme.config]. *)
Variable config_path : string.

(** The path returned by [get_readline_history_file()]. *)
Variable history_file : string.

(** Modelled from the spec: the provider's built-in recommended default
    model, "a pure function of Provider" ([gptme.llm] is not part of the
    sources at hand). *)
Variable recommended_model : string -> string.

(** Modelled from the spec: [load_dotenv()] and [load_config()] make the
    configuration available as a key-value store; [load_config] hands out
    the store as it is at the time of the call. *)
Definition load_dotenv : M unit := modify (emit LoadDotenv).

Definition load_config : M (gmap string string) :=
  modify (emit LoadConfig);;
  gets config_store.

(** Modelled from the spec: [config.get_env(key)] is [get] on the key
    namespaced under [env.], an optional string. *)
Definition get_env (config : gmap string string) (key : string)
  : option string :=
  config !! ("env." +:+ key).

(** Modelled from the spec: [set_config_value(key, value)] is [set] on the
    persisted store. *)
Definition set_config_value (key value : string) : M unit :=
  modify (emit (SetConfigValue key value));;
  modify (fun w => set_config_store (<[key := value]> (config_store w)) w).

(** Modelled from the spec: [init_llm(provider)] performs the
    credential/environment setup for the provider, which becomes the
    backend in use. *)
Definition init_llm (provider : string) : M unit :=
  modify (emit (InitLlm provider));;
  modify (set_llm_provider (Some provider)).

(** Modelled from the spec: [get_recommended_model()] takes no argument; it
    answers for the backend set up by [init_llm]. *)
Definition get_recommended_model : M string :=
  backend ← gets llm_provider;
  match backend with
  | Some p => ret (recommended_model p)
  | None => raise (RuntimeError "LLM not initialized")
  end.

Definition set_default_model (model : string) : M unit :=
  modify (emit (SetDefaultModel model));;
  modify (set_default_model_field (Some model)).

Definition register_tabcomplete : M unit := modify (emit RegisterTabcomplete).

Definition init_tools : M unit := modify (emit InitTools).

Definition get_readline_history_file : M string := ret history_file.

(** ** The functions of [init.py] *)

Definition PROVIDERS : list string := ["openai"; "anthropic"; "azure"; "local"].

Definition history_examples : list string :=
  [ "What is love?";
    "Have you heard about an open-source app called ActivityWatch?";
    "Explain 'Attention is All You Need' in the style of Andrej Karpathy.";
    "Explain how public-key cryptography works as if I'm five.";
    "Write a Python script that prints the first 100 prime numbers.";
    "Find all TODOs in the current git project" ].

Definition _load_readline_history : M unit :=
  logger_debug "Loading history";;
  Readline.set_auto_history true;;
  Readline.set_history_length 100;;
  path ← get_readline_history_file;
  try_except_FileNotFoundError
    (Readline.read_history_file path)
    (for_each history_examples Readline.add_history);;
  atexit_register (WriteHistoryFile path).

Definition ask_for_api_key : M (string * string) :=
  print "No API key set for OpenAI or Anthropic.";;
  print "You can get one at:
 - OpenAI: https://platform.openai.com/account/api-keys
 - Anthropic: https://console.anthropic.com/settings/keys
 ";;
  line ← input "Your OpenAI or Anthropic API key: ";
  let api_key := Py.strip line in
  let '(provider, env_var) :=
    if Py.startswith api_key "sk-ant-"
    then ("anthropic", "ANTHROPIC_API_KEY")
    else ("openai", "OPENAI_API_KEY") in
  set_config_value ("env." +:+ env_var) api_key;;
  print ("API key saved to config at " +:+ config_path);;
  ret (provider, api_key).

(** The string held by a [str | None] that has been tested truthy. *)
Definition as_str (o : option string) : string := default "" o.

Definition init (provider model : option string) (interactive : bool)
  : M unit :=
  done ← gets init_done;
  if done : bool then
    logger_warning "init() called twice, ignoring"
  else
    modify (set_init_done true);;
    logger_debug "Started";;
    load_dotenv;;
    config ← load_config;
    provider ← (if negb (Py.truthy provider)
                then ret (get_env config "PROVIDER")
                else ret provider);
    provider ← (if negb (Py.truthy provider) then
                  if Py.truthy (get_env config "OPENAI_API_KEY") then
                    print "Found OpenAI API key, using OpenAI provider";;
                    ret (Some "openai")
                  else if Py.truthy (get_env config "ANTHROPIC_API_KEY") then
                    print "Found Anthropic API key, using Anthropic provider";;
                    ret (Some "anthropic")
                  else if interactive then
                    r ← ask_for_api_key;
                    ret (Some (fst r))
                  else ret provider
                else ret provider);
    (if negb (Py.truthy provider)
     then raise (ValueError "No API key found, couldn't auto-detect provider")
     else ret tt);;
    init_llm (as_str provider);;
    model ← (if negb (Py.truthy model) then
               if Py.truthy (get_env config "MODEL")
               then ret (get_env config "MODEL")
               else m ← get_recommended_model; ret (Some m)
             else ret model);
    set_default_model (as_str model);;
    (if interactive then
       _load_readline_history;;
       register_tabcomplete
     else ret tt);;
    init_tools.


(** ** Observations on a run *)

(** The providers [init_llm] was called with. *)
Definition init_llm_calls (t : list Event) : list string :=
  omap (fun e => match e with InitLlm p => Some p | _ => None end) t.

(** The models [set_default_model] was called with. *)
Definition set_default_model_calls (t : list Event) : list string :=
  omap (fun e => match e with SetDefaultModel m => Some m | _ => None end) t.

(** The lines read from the user. *)
Definition lines_read (t : list Event) : list string :=
  omap (fun e => match e with Input _ line => Some line | _ => None end) t.

(** The calls [_load_readline_history] makes: the explicit calls of the
    [readline] module and the registration of the exit handler.  A line
    read by [input()] is not among them, although on a terminal it goes
    through readline as well. *)
Definition is_load_history_event (e : Event) : bool :=
  match e with
  | SetAutoHistory _ | SetHistoryLength _ | ReadHistoryFile _
  | AddHistory _ | AtexitRegister _ => true
  | _ => false
  end.

(** Events that handle a credential: persisting it to the configuration
    and the provider set-up. *)
Definition is_credential_event (e : Event) : bool :=
  match e with
  | SetConfigValue _ _ | InitLlm _ => true
  | _ => false
  end.

(** The part of a trace from the first call of [_load_readline_history]
    on. *)
Fixpoint from_load_history (t : list Event) : list Event :=
  match t with
  | [] => []
  | e :: t' => if is_load_history_event e then t else from_load_history t'
  end.


(** Entries recorded during the session, one [add_history] each. *)
Definition record_entries (entries : list string) : M unit :=
  for_each entries Readline.add_history.

(** ** The rules of the specification, for comparison with the code *)

(** Classification of a credential value: the provider and the
    configuration key it is stored under. *)
Definition classify (api_key : string) : string * string :=
  if Py.startswith api_key "sk-ant-"
  then ("anthropic", "env.ANTHROPIC_API_KEY")
  else ("openai", "env.OPENAI_API_KEY").

(** Provider precedence read literally: an argument is supplied when it is
    not [None], a credential is stored when its key is present. *)
Definition claimed_provider (explicit : option string)
    (config : gmap string string) (interactive : bool) (prompted : string)
  : option string :=
  match explicit with
  | Some p => Some p
  | None =>
      if Py.truthy (get_env config "PROVIDER")
      then get_env config "PROVIDER"
      else if bool_decide (is_Some (get_env config "OPENAI_API_KEY"))
      then Some "openai"
      else if bool_decide (is_Some (get_env config "ANTHROPIC_API_KEY"))
      then Some "anthropic"
      else if interactive then Some prompted
      else None
  end.

(** Provider precedence where supplied, present and stored all mean
    "not [None] and not empty". *)
Definition provider_precedence (explicit : option string)
    (config : gmap string string) (interactive : bool) (prompted : string)
  : option string :=
  if Py.truthy explicit then explicit
  else if Py.truthy (get_env config "PROVIDER")
  then get_env config "PROVIDER"
  else if Py.truthy (get_env config "OPENAI_API_KEY") then Some "openai"
  else if Py.truthy (get_env config "ANTHROPIC_API_KEY") then Some "anthropic"
  else if interactive then Some prompted
  else None.

(** Model precedence read literally: supplied and present mean
    "not [None]". *)
Definition claimed_model (explicit : option string)
    (config : gmap string string) (recommended : string) : string :=
  match explicit with
  | Some m => m
  | None =>
      match get_env config "MODEL" with
      | Some m => m
      | None => recommended
      end
  end.

(** Model precedence where supplied and present mean "not [None] and not
    empty". *)
Definition model_precedence (explicit : option string)
    (config : gmap string string) (recommended : string) : string :=
  if Py.truthy explicit then as_str explicit
  else if Py.truthy (get_env config "MODEL")
  then as_str (get_env config "MODEL")
  else recommended.

(** ** The two helpers in closed form

    What [ask_for_api_key] and [_load_readline_history] do to the world,
    written out; the run lemmas below prove that this is what the code
    does. *)

Definition prompt_events (line : string) : list Event :=
  [ Print "No API key set for OpenAI or Anthropic.";
    Print "You can get one at:
 - OpenAI: https://platform.openai.com/account/api-keys
 - Anthropic: https://console.anthropic.com/settings/keys
 ";
    Input "Your OpenAI or Anthropic API key: " line;
    SetConfigValue (classify (Py.strip line)).2 (Py.strip line);
    Print ("API key saved to config at " +:+ config_path) ].

Definition prompt_effect (line : string) (rest : list string) (w : World)
  : World :=
  mkWorld (init_done w)
          (trace w ++ prompt_events line)
          rest
          (tty w)
          (<[(classify (Py.strip line)).2 := Py.strip line]> (config_store w))
          (files w)
          (if tty w then Readline.auto_add line (readline w) else readline w)
          (atexit_handlers w)
          (llm_provider w)
          (default_model w).

(** The lines that initialisation appends to the history: those of the
    file, or the examples when there is no file. *)
Definition loaded_lines (w : World) : list string :=
  match files w !! history_file with
  | Some lines => lines
  | None => history_examples
  end.

Definition load_history_events (w : World) : list Event :=
  [ LogDebug "Loading history"; SetAutoHistory true; SetHistoryLength 100;
    ReadHistoryFile history_file ]
  ++ match files w !! history_file with
     | Some _ => []
     | None => AddHistory <$> history_examples
     end
  ++ [ AtexitRegister (WriteHistoryFile history_file) ].

Definition load_history_effect (w : World) : World :=
  mkWorld (init_done w)
          (trace w ++ load_history_events w)
          (stdin w)
          (tty w)
          (config_store w)
          (files w)
          (mkReadline true 100 (history (readline w) ++ loaded_lines w))
          (atexit_handlers w ++ [WriteHistoryFile history_file])
          (llm_provider w)
          (default_model w).

(** The credential prompt is reached: no explicit provider, nothing usable
    in the configuration, and the session is interactive. *)
Definition prompt_reached (provider : option string)
    (config : gmap string string) (interactive : bool) : bool :=
  negb (Py.truthy provider)
  && negb (Py.truthy (get_env config "PROVIDER"))
  && negb (Py.truthy (get_env config "OPENAI_API_KEY"))
  && negb (Py.truthy (get_env config "ANTHROPIC_API_KEY"))
  && interactive.

(** The texts printed. *)
Definition printed (t : list Event) : list string :=
  omap (fun e => match e with Print text => Some text | _ => None end) t.




(** [m] never resets the flag [_init_done]. *)
Definition keeps_done {A} (m : M A) : Prop :=
  forall w, init_done w = true -> init_done (world_of (m w)) = true.

(** ** Symbolic execution *)

(** [wp m w Q]: running [m] from [w] ends in an outcome and a world that
    satisfy [Q]. *)
Definition wp {A} (m : M A) (w : World) (Q : Result A -> World -> Prop)
  : Prop :=
  Q (outcome (m w)) (world_of (m w)).

Lemma wp_run {A} (m : M A) (w : World) (Q : Result A -> World -> Prop)
    (r : Result A) (w' : World) :
  m w = (r, w') -> Q r w' -> wp m w Q.
Proof. unfold wp, outcome, world_of. intros ->. exact id. Qed.

Lemma wp_ret {A} (a : A) (w : World) Q : Q (Ok a) w -> wp (ret a) w Q.
Proof. exact id. Qed.

Lemma wp_raise {A} (e : Exn) (w : World) (Q : Result A -> World -> Prop) :
  Q (Raise e) w -> wp (raise e) w Q.
Proof. exact id. Qed.

Lemma wp_modify (f : World -> World) (w : World) Q :
  Q (Ok tt) (f w) -> wp (modify f) w Q.
Proof. exact id. Qed.

Lemma wp_gets {A} (f : World -> A) (w : World) Q :
  Q (Ok (f w)) w -> wp (gets f) w Q.
Proof. exact id. Qed.

Lemma wp_bind {A B} (m : M A) (k : A -> M B) (w : World) Q :
  wp m w (fun r w1 =>
            match r with
            | Ok a => wp (k a) w1 Q
            | Raise e => Q (Raise e) w1
            end) ->
  wp (m ≫= k) w Q.
Proof.
  unfold wp, outcome, world_of, mbind, M_bind, bind.
  destruct (m w) as [[a|e] w1]; exact id.
Qed.

Lemma wp_try {A} (m h : M A) (w : World) Q :
  wp m w (fun r w1 =>
            match r with
            | Raise (FileNotFoundError _) => wp h w1 Q
            | _ => Q r w1
            end) ->
  wp (try_except_FileNotFoundError m h) w Q.
Proof.
  unfold wp, outcome, world_of, try_except_FileNotFoundError.
  destruct (m w) as [[a|[]] w1]; exact id.
Qed.

Lemma wp_for_each_nil {A} (body : A -> M unit) (w : World) Q :
  Q (Ok tt) w -> wp (for_each [] body) w Q.
Proof. exact id. Qed.

Lemma wp_for_each_cons {A} (x : A) (xs : list A) (body : A -> M unit)
    (w : World) Q :
  wp (body x ≫= fun _ => for_each xs body) w Q ->
  wp (for_each (x :: xs) body) w Q.
Proof. exact id. Qed.

(** What a run establishes is read off its outcome and final world. *)
Lemma wp_elim {A} (m : M A) (w : World) (Q : Result A -> World -> Prop) :
  wp m w Q -> Q (outcome (m w)) (world_of (m w)).
Proof. exact id. Qed.

(** The provider the prompt answers is never the empty string. *)
Lemma classify_truthy (api_key : string) :
  Py.str_truthy (classify api_key).1 = true.
Proof. unfold classify. destruct (Py.startswith api_key "sk-ant-"); reflexivity. Qed.

(** After every step the world is brought back to one record whose fields
    are in normal form, the trace as [t ++ [e1; ...; en]]. *)
Ltac simpl_world :=
  cbv [emit set_init_done set_stdin set_config_store set_files set_readline
       set_atexit_handlers set_llm_provider set_default_model_field
       prompt_effect prompt_events load_history_effect load_history_events
       loaded_lines fresh_world];
  cbn [init_done trace stdin tty config_store files readline
       atexit_handlers llm_provider default_model
       auto_history history_length history Readline.append_line
       app fst snd negb Py.truthy Py.str_truthy as_str default];
  rewrite <- ?app_assoc;
  cbn [app].

(** One step of a run: a rule for the construct at the head, or the
    unfolding of the operation called there. *)
Ltac wp_step :=
  lazymatch goal with
  | |- wp (mbind _ _) _ _ => apply wp_bind
  | |- wp (ret _) _ _ => apply wp_ret
  | |- wp (raise _) _ _ => apply wp_raise
  | |- wp (modify _) _ _ => apply wp_modify
  | |- wp (gets _) _ _ => apply wp_gets
  | |- wp (try_except_FileNotFoundError _ _) _ _ => apply wp_try
  | |- wp (for_each history_examples _) _ _ => unfold history_examples
  | |- wp (for_each [] _) _ _ => apply wp_for_each_nil
  | |- wp (for_each (_ :: _) _) _ _ => apply wp_for_each_cons
  | |- wp (if _ then _ else _) _ _ => fail
  | |- wp (match _ with _ => _ end) _ _ => fail
  | |- wp ?m _ _ =>
      let rec head t := lazymatch t with ?f _ => head f | _ => t end in
      let h := head m in
      unfold h
  end;
  cbv beta iota; simpl_world.

(** Case analysis on the test that blocks a run. *)
Ltac wp_case :=
  lazymatch goal with
  | |- wp (if negb (Py.str_truthy (classify ?k).1) then _ else _) _ _ =>
      rewrite (classify_truthy k)
  | |- wp (if negb ?c then _ else _) _ _ => destruct c eqn:?
  | |- wp (if ?c then _ else _) _ _ => destruct c eqn:?
  | |- wp (match (if ?c then _ else _) with _ => _ end) _ _ =>
      destruct c eqn:?
  | |- wp (match ?x with _ => _ end) _ _ => destruct x eqn:?
  end;
  cbv beta iota; simpl_world;
  try lazymatch goal with
      | H : false = true |- _ => discriminate H
      | H : true = false |- _ => discriminate H
      | H1 : ?c = true, H2 : ?c = false |- _ =>
          rewrite H1 in H2; discriminate H2
      end.

Ltac wp_run := repeat (repeat wp_step; try wp_case).

(** Turn a goal about the outcome and final world of [m w] into a run. *)
Ltac by_wp m w :=
  pattern (outcome (m w)), (world_of (m w)); apply wp_elim.

Ltac tidy_trace := rewrite <- ?app_assoc; cbn [app].

(** Normalise a world built by successive updates into one record. *)
Ltac norm_world :=
  cbv [emit set_init_done set_stdin set_config_store set_files
       set_readline set_atexit_handlers set_llm_provider
       set_default_model_field
       init_done trace stdin tty config_store files readline
       atexit_handlers llm_provider default_model
       auto_history history_length history Readline.append_line];
  tidy_trace.


(** ** The credential prompt *)

(** The prompt in closed form. *)
Lemma ask_for_api_key_run (w : World) (line : string) (rest : list string) :
  stdin w = line :: rest ->
  ask_for_api_key w
  = (Ok ((classify (Py.strip line)).1, Py.strip line),
     prompt_effect line rest w).
Proof.
  intros Hin. rewrite (surjective_pairing (ask_for_api_key w)).
  change ((ask_for_api_key w).1) with (outcome (ask_for_api_key w)).
  change ((ask_for_api_key w).2) with (world_of (ask_for_api_key w)).
  by_wp ask_for_api_key w.
  destruct w as [d t si ty cs fs rl ax lp dm]. cbn in Hin. subst si.
  unfold prompt_effect, prompt_events, classify.
  wp_run; norm_world; reflexivity.
Qed.

Lemma ask_for_api_key_eof (w : World) :
  stdin w = [] ->
  ask_for_api_key w
  = (Raise EOFError,
     emit (Print "You can get one at:
 - OpenAI: https://platform.openai.com/account/api-keys
 - Anthropic: https://console.anthropic.com/settings/keys
 ") (emit (Print "No API key set for OpenAI or Anthropic.") w)).
Proof.
  intros Hin. rewrite (surjective_pairing (ask_for_api_key w)).
  change ((ask_for_api_key w).1) with (outcome (ask_for_api_key w)).
  change ((ask_for_api_key w).2) with (world_of (ask_for_api_key w)).
  by_wp ask_for_api_key w.
  repeat wp_step. rewrite Hin. repeat wp_step. reflexivity.
Qed.

(** Stripping only removes whitespace at the two ends of the line. *)

Lemma lstrip_decompose (s : string) :
  exists pre, s = pre +:+ Py.lstrip s /\ Py.all_space pre = true.
Proof.
  induction s as [|a s IH]; cbn.
  - exists "". split; reflexivity.
  - destruct (Py.is_space a) eqn:Ha.
    + destruct IH as (pre & Heq & Hpre).
      exists (String a pre). cbn. rewrite Ha, Hpre. split; [|reflexivity].
      rewrite Heq at 1. reflexivity.
    + exists "". split; reflexivity.
Qed.

Lemma rstrip_decompose (s : string) :
  exists post, s = Py.rstrip s +:+ post /\ Py.all_space post = true.
Proof.
  induction s as [|a s IH]; cbn.
  - exists "". split; reflexivity.
  - destruct IH as (post & Heq & Hpost).
    destruct (Py.rstrip s) as [|b r] eqn:Hr.
    + destruct (Py.is_space a) eqn:Ha.
      * exists (String a post). cbn. rewrite Ha, Hpost.
        split; [|reflexivity]. rewrite Heq at 1. reflexivity.
      * exists post. split; [|exact Hpost]. rewrite Heq at 1. reflexivity.
    + exists post. split; [|exact Hpost].
      rewrite Heq at 1. reflexivity.
Qed.

Lemma append_assoc (a b c : string) : (a +:+ b) +:+ c = a +:+ (b +:+ c).
Proof.
  induction a as [|x a IH]; [reflexivity|].
  change (String x ((a +:+ b) +:+ c) = String x (a +:+ (b +:+ c))).
  now rewrite IH.
Qed.

Lemma strip_decompose (s : string) :
  exists pre post,
    s = pre +:+ Py.strip s +:+ post
    /\ Py.all_space pre = true /\ Py.all_space post = true.
Proof.
  destruct (rstrip_decompose s) as (post & Hs & Hpost).
  destruct (lstrip_decompose (Py.rstrip s)) as (pre & Hr & Hpre).
  exists pre, post. repeat split; try assumption.
  unfold Py.strip. rewrite <- append_assoc, <- Hr. exact Hs.
Qed.

(** C5 (as amended). The prompt classifies the line after stripping it of
    leading and trailing whitespace: when the stripped line starts with
    [sk-ant-] it answers [anthropic] and stores the credential under
    [env.ANTHROPIC_API_KEY]; for every other line, the empty one included,
    it answers [openai] and stores it under [env.OPENAI_API_KEY].  Nothing
    else happens: two texts are printed, one line is read, one value is
    written to the configuration and its location is printed; no service
    is contacted. *)
Theorem ask_for_api_key_classifies_stripped
    (w : World) (line : string) (rest : list string) :
  stdin w = line :: rest ->
  let r := ask_for_api_key w in
  let api_key := Py.strip line in
  (if Py.startswith api_key "sk-ant-"
   then outcome r = Ok ("anthropic", api_key)
        /\ config_store (world_of r)
           = <["env.ANTHROPIC_API_KEY" := api_key]> (config_store w)
   else outcome r = Ok ("openai", api_key)
        /\ config_store (world_of r)
           = <["env.OPENAI_API_KEY" := api_key]> (config_store w))
  /\ exists key t1 t2 t3 p,
      trace (world_of r)
      = trace w ++ [Print t1; Print t2; Input p line;
                    SetConfigValue key api_key; Print t3].
Proof.
  intros Hin r api_key. subst r api_key.
  rewrite (ask_for_api_key_run w line rest Hin).
  unfold outcome, world_of, prompt_effect, prompt_events, classify.
  cbn [fst snd config_store trace].
  split.
  - destruct (Py.startswith (Py.strip line) "sk-ant-"); split; reflexivity.
  - do 5 eexists. reflexivity.
Qed.

(** C6 (as amended). The prompt reads exactly one line, whatever it is, and
    does not ask again; the credential it returns and stores in the
    configuration is that line with leading and trailing whitespace
    stripped, and otherwise unchanged. *)
Theorem ask_for_api_key_single_stripped_line
    (w : World) (line : string) (rest : list string) :
  stdin w = line :: rest ->
  let r := ask_for_api_key w in
  stdin (world_of r) = rest
  /\ lines_read (trace (world_of r)) = lines_read (trace w) ++ [line]
  /\ (exists provider, outcome r = Ok (provider, Py.strip line))
  /\ config_store (world_of r) !! (classify (Py.strip line)).2
     = Some (Py.strip line)
  /\ exists pre post,
      line = pre +:+ Py.strip line +:+ post
      /\ Py.all_space pre = true /\ Py.all_space post = true.
Proof.
  intros Hin r. subst r.
  rewrite (ask_for_api_key_run w line rest Hin).
  unfold outcome, world_of, prompt_effect, prompt_events, lines_read.
  cbn [fst snd config_store trace stdin].
  repeat split.
  - rewrite omap_app. reflexivity.
  - eexists. reflexivity.
  - apply lookup_insert_eq.
  - apply strip_decompose.
Qed.

(** ** History initialisation *)

(** [_load_readline_history] in closed form; it never raises. *)
Lemma _load_readline_history_run (w : World) :
  _load_readline_history w = (Ok tt, load_history_effect w).
Proof.
  rewrite (surjective_pairing (_load_readline_history w)).
  change ((_load_readline_history w).1)
    with (outcome (_load_readline_history w)).
  change ((_load_readline_history w).2)
    with (world_of (_load_readline_history w)).
  by_wp _load_readline_history w.
  destruct w as [d t si ty cs fs [ah hl h] ax lp dm].
  unfold load_history_effect, load_history_events, loaded_lines.
  wp_run; norm_world; cbn [fmap list_fmap app]; tidy_trace; reflexivity.
Qed.

(** C9. Initialising the history never raises.  When the history file does
    not exist, the lines appended to the in-memory history are exactly the
    fixed example prompts, in order; when it exists, exactly its lines are
    appended and no example is added.  Starting from readline's empty
    history, the history is therefore exactly the examples, respectively
    exactly the file's entries. *)
Theorem load_history_seeds_examples (w : World) :
  let r := _load_readline_history w in
  outcome r = Ok tt
  /\ (files w !! history_file = None ->
      history (readline (world_of r))
      = history (readline w) ++ history_examples
      /\ (history (readline w) = [] ->
          history (readline (world_of r)) = history_examples))
  /\ (forall lines,
      files w !! history_file = Some lines ->
      history (readline (world_of r)) = history (readline w) ++ lines
      /\ (history (readline w) = [] ->
          history (readline (world_of r)) = lines)).
Proof.
  intros r. subst r. rewrite _load_readline_history_run.
  unfold outcome, world_of, load_history_effect, loaded_lines.
  cbn [fst snd readline history].
  split; [reflexivity|]. split.
  - intros ->. split; [reflexivity|]. intros ->. reflexivity.
  - intros lines ->. split; [reflexivity|]. intros ->. reflexivity.
Qed.

(** ** The cap on the history *)

Lemma record_entries_run (entries : list string) (w : World) :
  outcome (record_entries entries w) = Ok tt
  /\ readline (world_of (record_entries entries w))
     = mkReadline (auto_history (readline w)) (history_length (readline w))
                  (history (readline w) ++ entries)
  /\ atexit_handlers (world_of (record_entries entries w))
     = atexit_handlers w
  /\ files (world_of (record_entries entries w)) = files w.
Proof.
  revert w. induction entries as [|e entries IH]; intros w.
  - cbn. rewrite app_nil_r. destruct (readline w). repeat split.
  - change (record_entries (e :: entries) w)
      with (record_entries entries
              (set_readline (Readline.append_line e (readline w))
                            (emit (AddHistory e) w))).
    destruct (IH (set_readline (Readline.append_line e (readline w))
                               (emit (AddHistory e) w)))
      as (Hok & Hrl & Hax & Hfs).
    rewrite Hok, Hrl, Hax, Hfs. simpl_world.
    repeat split.
Qed.

Lemma run_handlers_readline (hs : list ExitHandler) (w : World) :
  readline (fold_left (fun w h => run_handler h w) hs w) = readline w.
Proof.
  revert w. induction hs as [|[path] hs IH]; intros w; [reflexivity|].
  cbn [fold_left]. rewrite IH. reflexivity.
Qed.

(** Once the file holds what readline saves, further handlers keep it so. *)
Lemma run_handlers_keep (hs : list ExitHandler) (w : World) (path : string) :
  files w !! path = Some (Readline.saved_lines (readline w)) ->
  files (fold_left (fun w h => run_handler h w) hs w) !! path
  = Some (Readline.saved_lines (readline w)).
Proof.
  revert w. induction hs as [|[q] hs IH]; intros w Hw; [exact Hw|].
  cbn [fold_left]. rewrite IH; [reflexivity|].
  cbn. destruct (decide (q = path)) as [->|Hne].
  - apply lookup_insert_eq.
  - rewrite lookup_insert_ne by exact Hne. exact Hw.
Qed.

Lemma run_handlers_write (hs : list ExitHandler) (w : World) (path : string) :
  In (WriteHistoryFile path) hs ->
  files (fold_left (fun w h => run_handler h w) hs w) !! path
  = Some (Readline.saved_lines (readline w)).
Proof.
  revert w. induction hs as [|[q] hs IH]; intros w Hin; [destruct Hin|].
  cbn [fold_left]. destruct Hin as [Heq|Hin].
  - injection Heq as ->.
    rewrite run_handlers_keep; [reflexivity|].
    cbn. apply lookup_insert_eq.
  - rewrite IH by exact Hin. reflexivity.
Qed.

Lemma run_atexit_write (w : World) (path : string) :
  In (WriteHistoryFile path) (atexit_handlers w) ->
  files (run_atexit w) !! path = Some (Readline.saved_lines (readline w)).
Proof.
  intros Hin. unfold run_atexit. apply run_handlers_write.
  apply in_rev. rewrite rev_involutive. exact Hin.
Qed.

Lemma keep_last_length {A} (n : nat) (l : list A) :
  length (Readline.keep_last n l) <= n.
Proof. unfold Readline.keep_last. rewrite length_drop. lia. Qed.

Lemma keep_last_app {A} (n : nat) (l k : list A) :
  n <= length k ->
  Readline.keep_last n (l ++ k) = Readline.keep_last n k.
Proof.
  intros Hn. unfold Readline.keep_last.
  rewrite length_app, drop_app_ge by lia. f_equal. lia.
Qed.

(** C8 (as amended). The cap of 100 applies to the history file, when it is
    written at normal exit, not to the history held in memory during the
    session: after initialisation and any recorded entries, the memory
    holds all of them, and the file written at exit holds the last 100
    lines of the memory at most.  After 150 recorded entries the file holds
    exactly the 100 most recent of them, the oldest dropped first. *)
Theorem history_file_capped_at_exit (w : World) (entries : list string) :
  let w1 := world_of (_load_readline_history w) in
  let w2 := world_of (record_entries entries w1) in
  let memory := history (readline w2) in
  memory = history (readline w) ++ loaded_lines w ++ entries
  /\ files (run_atexit w2) !! history_file
     = Some (Readline.keep_last 100 memory)
  /\ length (Readline.keep_last 100 memory) <= 100
  /\ (length entries = 150 ->
      files (run_atexit w2) !! history_file = Some (drop 50 entries)).
Proof.
  intros w1 w2 memory. subst memory w2 w1.
  rewrite _load_readline_history_run.
  change (world_of (Ok tt, load_history_effect w))
    with (load_history_effect w).
  destruct (record_entries_run entries (load_history_effect w))
    as (_ & Hrl & Hax & _).
  assert (Hfile :
    files (run_atexit (world_of (record_entries entries
                                   (load_history_effect w))))
      !! history_file
    = Some (Readline.keep_last 100
              (history (readline w) ++ loaded_lines w ++ entries))).
  { rewrite run_atexit_write.
    - rewrite Hrl. unfold Readline.saved_lines. cbn.
      rewrite <- app_assoc. reflexivity.
    - rewrite Hax. cbn. apply in_or_app. right. left. reflexivity. }
  rewrite Hrl. cbn [history load_history_effect readline].
  rewrite <- app_assoc.
  split; [reflexivity|]. split; [exact Hfile|].
  split; [apply keep_last_length|].
  intros Hlen. rewrite Hfile. f_equal.
  rewrite app_assoc, keep_last_app by lia.
  unfold Readline.keep_last. rewrite Hlen. reflexivity.
Qed.

(** ** Runs of [init] *)

(** Calls to the two helpers are run by their closed forms. *)
Ltac wp_call :=
  lazymatch goal with
  | |- wp ask_for_api_key ?w _ =>
      let pending := eval cbn in (stdin w) in
      lazymatch pending with
      | ?line :: ?rest =>
          eapply wp_run;
          [ apply (ask_for_api_key_run w line rest); reflexivity | ]
      | [] =>
          eapply wp_run; [ apply ask_for_api_key_eof; reflexivity | ]
      end
  | |- wp _load_readline_history ?w _ =>
      eapply wp_run; [ apply _load_readline_history_run | ]
  end;
  cbv beta iota; simpl_world.

Ltac wp_go := repeat first [ wp_call | wp_step | wp_case ].

(** From [Py.truthy x = true], the string held by [x]. *)
Ltac open_truthy :=
  repeat match goal with
         | H : Py.truthy ?x = true |- _ =>
             let E := fresh "E" in
             destruct x as [?|] eqn:E;
             [ clear H | try rewrite E in H; discriminate H ]
         end.

(** The end of a run: the trace is made explicit and what remains is
    decided by computation. *)
Ltac leaf :=
  open_truthy;
  unfold load_history_events, loaded_lines, init_llm_calls,
    set_default_model_calls, lines_read;
  simpl_world;
  repeat match goal with
         | |- context [match ?m !! ?k with _ => _ end] => destruct (m !! k)
         end;
  cbn [omap app fmap list_fmap];
  repeat split; try reflexivity.

(** ** Provider resolution *)

(** C1 (as amended). In a fresh process the provider is resolved by this
    precedence: the explicit argument if it is supplied and non-empty;
    otherwise the configuration value [PROVIDER] if present and non-empty;
    otherwise [openai] if a non-empty OpenAI credential is stored;
    otherwise [anthropic] if a non-empty Anthropic credential is stored;
    otherwise, when interactive, the provider the credential prompt returns
    for the line typed; otherwise [init] raises the configuration error and
    no provider is set up. *)
Theorem init_provider_precedence
    (config : gmap string string) (fs : gmap string (list string))
    (line : string) (rest : list string) (on_tty : bool)
    (provider model : option string) (interactive : bool) :
  let r := init provider model interactive
                (fresh_world config fs (line :: rest) on_tty) in
  match provider_precedence provider config interactive
                            (classify (Py.strip line)).1 with
  | Some p =>
      outcome r = Ok tt
      /\ init_llm_calls (trace (world_of r)) = [p]
      /\ llm_provider (world_of r) = Some p
  | None =>
      outcome r
      = Raise (ValueError "No API key found, couldn't auto-detect provider")
      /\ init_llm_calls (trace (world_of r)) = []
      /\ llm_provider (world_of r) = None
  end.
Proof.
  intros r. subst r.
  by_wp (init provider model interactive)
        (fresh_world config fs (line :: rest) on_tty).
  unfold provider_precedence.
  wp_go; leaf.
Qed.

(** ** Failure of the resolution *)

(** C4. When [init] runs with no explicit provider (none, or the empty
    string), not interactive, and the configuration gives no [PROVIDER]
    and no OpenAI or Anthropic credential, it raises the configuration
    error.  All it has done by then is log its start and load the
    environment and the configuration: no provider set-up, no model
    selection, no history initialisation, no tool initialisation, and
    nothing is read or written. *)
Theorem init_fails_without_provider
    (w : World) (provider model : option string) :
  init_done w = false ->
  Py.truthy provider = false ->
  Py.truthy (get_env (config_store w) "PROVIDER") = false ->
  Py.truthy (get_env (config_store w) "OPENAI_API_KEY") = false ->
  Py.truthy (get_env (config_store w) "ANTHROPIC_API_KEY") = false ->
  let r := init provider model false w in
  outcome r
  = Raise (ValueError "No API key found, couldn't auto-detect provider")
  /\ trace (world_of r)
     = trace w ++ [LogDebug "Started"; LoadDotenv; LoadConfig]
  /\ llm_provider (world_of r) = llm_provider w
  /\ default_model (world_of r) = default_model w
  /\ readline (world_of r) = readline w
  /\ atexit_handlers (world_of r) = atexit_handlers w
  /\ config_store (world_of r) = config_store w
  /\ files (world_of r) = files w
  /\ stdin (world_of r) = stdin w.
Proof.
  intros Hdone Hp Hcfg Hoa Han r. subst r.
  by_wp (init provider model false) w.
  destruct w as [d t si ty cs fs rl ax lp dm].
  cbn in Hdone, Hcfg, Hoa, Han. subst d.
  wp_go. repeat split.
Qed.

(** ** Model selection *)

(** C7 (as amended). Whenever a provider of the closed set [PROVIDERS] has
    been resolved, [init] goes on to completion and selects the model by
    this precedence: the explicit argument if it is supplied and non-empty;
    otherwise the configuration value [MODEL] if present and non-empty;
    otherwise the recommended default of the provider.  [set_default_model]
    is called once, with that model; model selection never fails, the
    recommended default being asked for a provider of the closed set
    only. *)
Theorem init_model_precedence
    (config : gmap string string) (fs : gmap string (list string))
    (typed : list string) (on_tty : bool)
    (provider model : option string) (interactive : bool) (p : string) :
  let r := init provider model interactive
                (fresh_world config fs typed on_tty) in
  In p PROVIDERS ->
  llm_provider (world_of r) = Some p ->
  outcome r = Ok tt
  /\ set_default_model_calls (trace (world_of r))
     = [model_precedence model config (recommended_model p)]
  /\ default_model (world_of r)
     = Some (model_precedence model config (recommended_model p)).
Proof.
  intros r. subst r.
  by_wp (init provider model interactive)
        (fresh_world config fs typed on_tty).
  unfold model_precedence.
  destruct typed as [|line rest];
    wp_go;
    (intros _ Hp; try discriminate Hp; injection Hp as <-; leaf).
Qed.

(** ** No validation of the provider *)

(** C10. [init] never checks the provider against [PROVIDERS]: any
    non-empty string given as the explicit argument, or found as the
    configuration value [PROVIDER] when no explicit provider is given, is
    adopted as it is; [init_llm] is called with it and [init] completes
    without the configuration error. *)
Theorem init_adopts_any_provider
    (config : gmap string string) (fs : gmap string (list string))
    (typed : list string) (on_tty : bool)
    (model : option string) (interactive : bool) (s : string) :
  Py.str_truthy s = true ->
  (let r := init (Some s) model interactive
                 (fresh_world config fs typed on_tty) in
   outcome r = Ok tt
   /\ init_llm_calls (trace (world_of r)) = [s]
   /\ llm_provider (world_of r) = Some s)
  /\ (forall provider,
      Py.truthy provider = false ->
      get_env config "PROVIDER" = Some s ->
      let r := init provider model interactive
                    (fresh_world config fs typed on_tty) in
      outcome r = Ok tt
      /\ init_llm_calls (trace (world_of r)) = [s]
      /\ llm_provider (world_of r) = Some s).
Proof.
  intros Hs. split.
  - intros r. subst r.
    by_wp (init (Some s) model interactive)
          (fresh_world config fs typed on_tty).
    wp_go; leaf.
  - intros provider Hp Hcfg r. subst r.
    by_wp (init provider model interactive)
          (fresh_world config fs typed on_tty).
    repeat wp_step. rewrite ?Hcfg.
    wp_go; leaf.
Qed.

(** ** Repeated calls *)

Lemma keeps_done_ret {A} (a : A) : keeps_done (ret a).
Proof. intros w Hw. exact Hw. Qed.

Lemma keeps_done_raise {A} (e : Exn) : keeps_done (@raise A e).
Proof. intros w Hw. exact Hw. Qed.

Lemma keeps_done_gets {A} (f : World -> A) : keeps_done (gets f).
Proof. intros w Hw. exact Hw. Qed.

Lemma keeps_done_modify (f : World -> World) :
  (forall w, init_done w = true -> init_done (f w) = true) ->
  keeps_done (modify f).
Proof. intros Hf w Hw. exact (Hf w Hw). Qed.

Lemma keeps_done_bind {A B} (m : M A) (k : A -> M B) :
  keeps_done m -> (forall a, keeps_done (k a)) -> keeps_done (m ≫= k).
Proof.
  intros Hm Hk w Hw. specialize (Hm w Hw).
  unfold world_of, mbind, M_bind, bind in *.
  destruct (m w) as [[a|e] w1]; cbn in *.
  - apply Hk. exact Hm.
  - exact Hm.
Qed.

Lemma keeps_done_try {A} (m h : M A) :
  keeps_done m -> keeps_done h ->
  keeps_done (try_except_FileNotFoundError m h).
Proof.
  intros Hm Hh w Hw. specialize (Hm w Hw).
  unfold world_of, try_except_FileNotFoundError in *.
  destruct (m w) as [[a|[]] w1]; cbn in *; try exact Hm.
  apply Hh. exact Hm.
Qed.

Create HintDb keeps_done discriminated.
#[local] Hint Resolve keeps_done_ret keeps_done_raise keeps_done_gets
  keeps_done_bind keeps_done_try : keeps_done.

Lemma keeps_done_for_each {A} (xs : list A) (body : A -> M unit) :
  (forall x, keeps_done (body x)) -> keeps_done (for_each xs body).
Proof.
  intros Hbody. induction xs as [|x xs IH]; cbn [for_each].
  - apply keeps_done_ret.
  - eauto with keeps_done.
Qed.


(** Decompose a program into its operations; what is left are the world
    updates, none of which touches the flag. *)
Ltac keeps :=
  repeat first
    [ apply keeps_done_bind
    | apply keeps_done_try
    | apply keeps_done_for_each
    | apply keeps_done_ret
    | apply keeps_done_raise
    | apply keeps_done_gets
    | apply keeps_done_modify; intros [] Hdone;
      first [ exact Hdone | reflexivity ]
    | lazymatch goal with
      | |- keeps_done _ => fail
      | |- forall _, _ => intro
      end
    | lazymatch goal with
      | |- keeps_done (let _ := _ in _) => cbv zeta
      | |- keeps_done (if ?c then _ else _) => destruct c
      | |- keeps_done (match (if ?c then _ else _) with _ => _ end) =>
          destruct c
      | |- keeps_done (match ?x with _ => _ end) => destruct x
      | |- keeps_done ?m =>
          let rec head t := lazymatch t with ?f _ => head f | _ => t end in
          let h := head m in
          unfold h
      end ].

Lemma keeps_done_ask_for_api_key : keeps_done ask_for_api_key.
Proof. keeps. Qed.

Lemma keeps_done_load_history : keeps_done _load_readline_history.
Proof. keeps. Qed.

Lemma keeps_done_init (provider model : option string) (interactive : bool) :
  keeps_done (init provider model interactive).
Proof.
  unfold init. keeps.
Qed.

Lemma keeps_done_wp {A} (m : M A) (w : World) :
  keeps_done m -> init_done w = true ->
  wp m w (fun _ w' => init_done w' = true).
Proof. intros Hm Hw. exact (Hm w Hw). Qed.

(** Whatever the first call does, and however it ends, it leaves the flag
    set: the flag is set before any work and nothing resets it. *)
Lemma init_sets_done
    (w : World) (provider model : option string) (interactive : bool) :
  init_done (world_of (init provider model interactive w)) = true.
Proof.
  destruct (init_done w) eqn:Hw.
  - apply keeps_done_init. exact Hw.
  - pattern (world_of (init provider model interactive w)).
    change (wp (init provider model interactive) w
               (fun _ w' => init_done w' = true)).
    destruct w as [d t si ty cs fs rl ax lp dm]. cbn in Hw. subst d.
    unfold init. apply wp_bind, wp_gets. cbv beta iota. cbn [init_done].
    apply wp_bind, wp_modify. cbv beta iota.
    apply keeps_done_wp; [keeps | reflexivity].
Qed.

(** C2. Once [init] has been called, whether that call completed or
    raised, every further call, with any arguments, only logs the warning
    and returns: the trace grows by that warning and nothing else; the
    configuration, the pending input, the files, the readline state, the
    exit handlers, the provider and the model are left as they were.  Two
    calls therefore have the effects of one. *)
Theorem init_second_call_is_noop
    (w0 : World) (provider1 model1 : option string) (interactive1 : bool)
    (provider2 model2 : option string) (interactive2 : bool) :
  let w1 := world_of (init provider1 model1 interactive1 w0) in
  let r2 := init provider2 model2 interactive2 w1 in
  outcome r2 = Ok tt
  /\ trace (world_of r2)
     = trace w1 ++ [LogWarning "init() called twice, ignoring"]
  /\ config_store (world_of r2) = config_store w1
  /\ stdin (world_of r2) = stdin w1
  /\ files (world_of r2) = files w1
  /\ readline (world_of r2) = readline w1
  /\ atexit_handlers (world_of r2) = atexit_handlers w1
  /\ llm_provider (world_of r2) = llm_provider w1
  /\ default_model (world_of r2) = default_model w1
  /\ init_done (world_of r2) = true.
Proof.
  intros w1 r2. subst r2.
  pose proof (init_sets_done w0 provider1 model1 interactive1) as Hdone.
  fold w1 in Hdone. clearbody w1.
  by_wp (init provider2 model2 interactive2) w1.
  destruct w1 as [d t si ty cs fs rl ax lp dm]. cbn in Hdone. subst d.
  wp_go. repeat split.
Qed.

(** ** Credentials and the history *)

(** X16. The order of the set-up, as far as it goes: in every run of [init]
    in a fresh process, no credential is persisted and no provider is set
    up once [_load_readline_history] has made its first call.  This says
    nothing of the line read at the prompt, which comes earlier. *)
Lemma init_setup_before_load_history
    (config : gmap string string) (fs : gmap string (list string))
    (typed : list string) (on_tty : bool)
    (provider model : option string) (interactive : bool) :
  let r := init provider model interactive
                (fresh_world config fs typed on_tty) in
  filter (fun e => is_credential_event e = true)
         (from_load_history (trace (world_of r))) = [].
Proof.
  intros r. subst r.
  by_wp (init provider model interactive)
        (fresh_world config fs typed on_tty).
  destruct typed as [|line rest]; wp_go; leaf.
Qed.

(** X15. What the prompt leaves in the history: on a terminal the line typed is
    read through readline, whose auto history is on from the start, so a
    non-empty line is in the history before the history is initialised,
    and it is written to the history file at exit. *)
Lemma init_prompt_line_in_history
    (config : gmap string string) (fs : gmap string (list string))
    (line : string) (rest : list string) (model : option string) :
  Py.truthy (get_env config "PROVIDER") = false ->
  Py.truthy (get_env config "OPENAI_API_KEY") = false ->
  Py.truthy (get_env config "ANTHROPIC_API_KEY") = false ->
  Py.str_truthy line = true ->
  let w := fresh_world config fs (line :: rest) true in
  let r := init None model true w in
  outcome r = Ok tt
  /\ history (readline (world_of r)) = line :: loaded_lines w
  /\ files (run_atexit (world_of r)) !! history_file
     = Some (Readline.keep_last 100 (line :: loaded_lines w)).
Proof.
  intros Hcfg Hoa Han Hline w r. subst r w.
  assert (Hrun :
    wp (init None model true) (fresh_world config fs (line :: rest) true)
       (fun r w' =>
          r = Ok tt
          /\ readline w'
             = mkReadline true 100
                 (line :: loaded_lines
                            (fresh_world config fs (line :: rest) true))
          /\ In (WriteHistoryFile history_file) (atexit_handlers w'))).
  { unfold loaded_lines. wp_go;
      unfold Readline.auto_add; cbn; rewrite Hline; cbn;
      (split; [reflexivity|]); (split; [reflexivity|]); left; reflexivity. }
  apply wp_elim in Hrun. destruct Hrun as (Hok & Hrl & Hax).
  split; [exact Hok|]. split.
  - rewrite Hrl. reflexivity.
  - rewrite run_atexit_write by exact Hax. rewrite Hrl. reflexivity.
Qed.

(** ** Further properties of [init] *)

(** X1. A non-interactive [init], from any world and with any provider and
    model, reads no input and leaves the readline state, the exit handlers,
    the files and the configuration as they were. *)
Theorem init_noninteractive_untouched
    (w : World) (provider model : option string) :
  let r := init provider model false w in
  stdin (world_of r) = stdin w
  /\ readline (world_of r) = readline w
  /\ atexit_handlers (world_of r) = atexit_handlers w
  /\ files (world_of r) = files w
  /\ config_store (world_of r) = config_store w.
Proof.
  intros r. subst r. by_wp (init provider model false) w.
  destruct w as [[] t si ty cs fs rl ax lp dm]; wp_go; repeat split.
Qed.

(** X2. [init] never writes a history file: whatever the state it starts
    in, its arguments, the input and the way it ends, every history file
    holds after [init] what it held before.  The history reaches its file
    only when the exit handler runs.  (The configuration is another store:
    a run that prompts persists the credential there.) *)
Theorem init_never_writes_history_files
    (w : World) (provider model : option string) (interactive : bool) :
  files (world_of (init provider model interactive w)) = files w.
Proof.
  by_wp (init provider model interactive) w.
  destruct w as [[] t [|line rest] ty cs fs rl ax lp dm]; wp_go; reflexivity.
Qed.

(** X3. In a fresh process the credential prompt runs exactly when no
    explicit provider is given, the configuration has no usable [PROVIDER],
    OpenAI or Anthropic value, and the session is interactive.  Only then
    is a line read (exactly one) and the configuration written (exactly the
    key of the credential typed); otherwise the input and the configuration
    are untouched. *)
Theorem init_prompts_exactly_when_unresolved
    (config : gmap string string) (fs : gmap string (list string))
    (line : string) (rest : list string) (on_tty : bool)
    (provider model : option string) (interactive : bool) :
  let r := init provider model interactive
                (fresh_world config fs (line :: rest) on_tty) in
  if prompt_reached provider config interactive
  then lines_read (trace (world_of r)) = [line]
       /\ stdin (world_of r) = rest
       /\ config_store (world_of r)
          = <[(classify (Py.strip line)).2 := Py.strip line]> config
  else lines_read (trace (world_of r)) = []
       /\ stdin (world_of r) = line :: rest
       /\ config_store (world_of r) = config.
Proof.
  intros r. subst r.
  by_wp (init provider model interactive)
        (fresh_world config fs (line :: rest) on_tty).
  unfold prompt_reached.
  wp_go; leaf.
Qed.

(** X4. When the prompt is reached and the input is at its end, [init]
    raises [EOFError]: nothing is written to the configuration, no provider
    is set up, no model is selected, and the flag [_init_done] is left
    set. *)
Theorem init_prompt_at_end_of_input
    (config : gmap string string) (fs : gmap string (list string))
    (on_tty : bool) (provider model : option string) :
  prompt_reached provider config true = true ->
  let r := init provider model true (fresh_world config fs [] on_tty) in
  outcome r = Raise EOFError
  /\ config_store (world_of r) = config
  /\ init_llm_calls (trace (world_of r)) = []
  /\ set_default_model_calls (trace (world_of r)) = []
  /\ init_done (world_of r) = true.
Proof.
  intros Hreach r. subst r. unfold prompt_reached in Hreach.
  repeat (apply andb_prop in Hreach; destruct Hreach as [Hreach ?]).
  repeat match goal with
         | H : negb _ = true |- _ => apply negb_true_iff in H
         end.
  by_wp (init provider model true) (fresh_world config fs [] on_tty).
  wp_go; leaf.
Qed.

(** The failing run of [init] in closed form. *)
Lemma init_fail_run (w : World) (provider model : option string) :
  init_done w = false ->
  Py.truthy provider = false ->
  Py.truthy (get_env (config_store w) "PROVIDER") = false ->
  Py.truthy (get_env (config_store w) "OPENAI_API_KEY") = false ->
  Py.truthy (get_env (config_store w) "ANTHROPIC_API_KEY") = false ->
  init provider model false w
  = (Raise (ValueError "No API key found, couldn't auto-detect provider"),
     mkWorld true (trace w ++ [LogDebug "Started"; LoadDotenv; LoadConfig])
             (stdin w) (tty w) (config_store w) (files w) (readline w)
             (atexit_handlers w) (llm_provider w) (default_model w)).
Proof.
  intros Hdone Hp Hcfg Hoa Han.
  rewrite (surjective_pairing (init provider model false w)).
  change ((init provider model false w).1)
    with (outcome (init provider model false w)).
  change ((init provider model false w).2)
    with (world_of (init provider model false w)).
  by_wp (init provider model false) w.
  destruct w as [d t si ty cs fs rl ax lp dm].
  cbn in Hdone, Hcfg, Hoa, Han. subst d.
  wp_go. reflexivity.
Qed.

(** X5. A failed bootstrap cannot be retried in the same process: after
    [init] has raised the configuration error, a second call, even with an
    explicit provider and model, sets up no provider and selects no model;
    it only logs the warning. *)
Theorem init_retry_after_failure_does_nothing
    (w : World) (provider model : option string)
    (provider' model' : option string) (interactive' : bool) :
  init_done w = false ->
  Py.truthy provider = false ->
  Py.truthy (get_env (config_store w) "PROVIDER") = false ->
  Py.truthy (get_env (config_store w) "OPENAI_API_KEY") = false ->
  Py.truthy (get_env (config_store w) "ANTHROPIC_API_KEY") = false ->
  let w1 := world_of (init provider model false w) in
  let r2 := init provider' model' interactive' w1 in
  outcome r2 = Ok tt
  /\ llm_provider (world_of r2) = llm_provider w
  /\ default_model (world_of r2) = default_model w
  /\ trace (world_of r2)
     = trace w ++ [LogDebug "Started"; LoadDotenv; LoadConfig;
                   LogWarning "init() called twice, ignoring"].
Proof.
  intros Hdone Hp Hcfg Hoa Han w1 r2. subst r2 w1.
  rewrite (init_fail_run w provider model Hdone Hp Hcfg Hoa Han).
  cbn [world_of snd].
  match goal with
  | |- context [init provider' model' interactive' ?w1] =>
      by_wp (init provider' model' interactive') w1
  end.
  wp_go. repeat split.
Qed.

(** ** Further properties of the credential prompt *)

Lemma lstrip_no_leading_space (s : string) :
  starts_with_space (Py.lstrip s) = false.
Proof.
  induction s as [|a s IH]; [reflexivity|].
  cbn [Py.lstrip]. destruct (Py.is_space a) eqn:Ha; [exact IH|].
  cbn. exact Ha.
Qed.

Lemma rstrip_no_trailing_space (s : string) :
  ends_with_space (Py.rstrip s) = false.
Proof.
  induction s as [|a s IH]; [reflexivity|].
  cbn [Py.rstrip]. destruct (Py.rstrip s) as [|b r].
  - destruct (Py.is_space a) eqn:Ha; [reflexivity|]. cbn. exact Ha.
  - exact IH.
Qed.

Lemma lstrip_keeps_no_trailing_space (s : string) :
  ends_with_space s = false -> ends_with_space (Py.lstrip s) = false.
Proof.
  induction s as [|a s IH]; intros Hs; [reflexivity|].
  cbn [Py.lstrip]. destruct (Py.is_space a) eqn:Ha; [|exact Hs].
  apply IH. destruct s as [|b s]; [|exact Hs].
  cbn in Hs. congruence.
Qed.

Lemma strip_all_space (s : string) :
  Py.all_space s = true -> Py.strip s = "".
Proof.
  intros Hs. unfold Py.strip.
  assert (Hr : Py.rstrip s = "").
  { induction s as [|a s IH]; [reflexivity|].
    cbn in Hs. apply andb_prop in Hs. destruct Hs as [Ha Hs].
    cbn [Py.rstrip]. rewrite (IH Hs), Ha. reflexivity. }
  rewrite Hr. reflexivity.
Qed.

(** X6. The credential that the prompt returns and stores never starts or
    ends with a whitespace character, whatever line is typed. *)
Theorem ask_for_api_key_stores_trimmed
    (w : World) (line : string) (rest : list string) :
  stdin w = line :: rest ->
  exists provider key,
    outcome (ask_for_api_key w) = Ok (provider, key)
    /\ config_store (world_of (ask_for_api_key w))
         !! (classify key).2 = Some key
    /\ starts_with_space key = false
    /\ ends_with_space key = false.
Proof.
  intros Hin. exists (classify (Py.strip line)).1, (Py.strip line).
  rewrite (ask_for_api_key_run w line rest Hin).
  unfold outcome, world_of, prompt_effect. cbn [fst snd config_store].
  repeat split.
  - apply lookup_insert_eq.
  - apply lstrip_no_leading_space.
  - apply lstrip_keeps_no_trailing_space, rstrip_no_trailing_space.
Qed.

(** X7. The prompt writes one configuration key and no other: every key
    other than the one the credential is classified under keeps its
    value. *)
Theorem ask_for_api_key_writes_one_key
    (w : World) (line : string) (rest : list string) (key : string) :
  stdin w = line :: rest ->
  key <> (classify (Py.strip line)).2 ->
  config_store (world_of (ask_for_api_key w)) !! key = config_store w !! key.
Proof.
  intros Hin Hkey. rewrite (ask_for_api_key_run w line rest Hin).
  unfold world_of, prompt_effect. cbn [snd config_store].
  apply lookup_insert_ne. congruence.
Qed.

(** ** From one process to the next *)

Lemma prompt_reached_true (provider : option string)
    (config : gmap string string) (interactive : bool) :
  prompt_reached provider config interactive = true ->
  Py.truthy provider = false
  /\ Py.truthy (get_env config "PROVIDER") = false
  /\ Py.truthy (get_env config "OPENAI_API_KEY") = false
  /\ Py.truthy (get_env config "ANTHROPIC_API_KEY") = false
  /\ interactive = true.
Proof.
  unfold prompt_reached. intros H.
  repeat (apply andb_prop in H; destruct H as [H ?]).
  repeat match goal with
         | H : negb _ = true |- _ => apply negb_true_iff in H
         end.
  repeat split; assumption.
Qed.

(** What a run that prompts leaves behind. *)
Lemma init_prompt_facts
    (config : gmap string string) (fs : gmap string (list string))
    (line : string) (rest : list string) (on_tty : bool)
    (provider model : option string) :
  prompt_reached provider config true = true ->
  let r := init provider model true
                (fresh_world config fs (line :: rest) on_tty) in
  outcome r = Ok tt
  /\ init_llm_calls (trace (world_of r)) = [(classify (Py.strip line)).1]
  /\ config_store (world_of r)
     = <[(classify (Py.strip line)).2 := Py.strip line]> config.
Proof.
  intros Hreach r. subst r.
  destruct (prompt_reached_true _ _ _ Hreach) as (Hp & Hcfg & Hoa & Han & _).
  by_wp (init provider model true)
        (fresh_world config fs (line :: rest) on_tty).
  wp_go; leaf.
Qed.

(** The configuration as the next process reads it, after a credential was
    stored by the prompt. *)
Lemma get_env_after_prompt (config : gmap string string) (key : string) :
  get_env (<[(classify key).2 := key]> config) "PROVIDER"
  = get_env config "PROVIDER"
  /\ get_env (<[(classify key).2 := key]> config) "OPENAI_API_KEY"
     = (if Py.startswith key "sk-ant-"
        then get_env config "OPENAI_API_KEY" else Some key)
  /\ get_env (<[(classify key).2 := key]> config) "ANTHROPIC_API_KEY"
     = (if Py.startswith key "sk-ant-"
        then Some key else get_env config "ANTHROPIC_API_KEY").
Proof.
  unfold get_env, classify.
  destruct (Py.startswith key "sk-ant-"); cbn [snd];
    repeat split;
    first [ apply lookup_insert_eq | apply lookup_insert_ne; discriminate ].
Qed.

(** X8. A credential typed at the prompt is found again: when a run
    prompted and the line typed is not blank, a later fresh process that
    reads the configuration left behind resolves, without an explicit
    provider and without prompting, the same provider as the run that
    prompted. *)
Theorem prompted_provider_is_detected_next_time
    (config : gmap string string) (fs fs' : gmap string (list string))
    (line : string) (rest typed' : list string) (on_tty on_tty' : bool)
    (provider model provider' model' : option string) (interactive' : bool) :
  prompt_reached provider config true = true ->
  Py.str_truthy (Py.strip line) = true ->
  Py.truthy provider' = false ->
  let w1 := world_of (init provider model true
                           (fresh_world config fs (line :: rest) on_tty)) in
  let r' := init provider' model' interactive'
                 (fresh_world (config_store w1) fs' typed' on_tty') in
  outcome r' = Ok tt
  /\ init_llm_calls (trace (world_of r')) = init_llm_calls (trace w1)
  /\ lines_read (trace (world_of r')) = []
  /\ stdin (world_of r') = typed'.
Proof.
  intros Hreach Hkey Hp' w1 r'. subst r' w1.
  destruct (init_prompt_facts config fs line rest on_tty provider model Hreach)
    as (_ & Hcalls & Hstore).
  destruct (prompt_reached_true _ _ _ Hreach) as (_ & Hcfg & Hoa & Han & _).
  rewrite Hcalls, Hstore.
  destruct (get_env_after_prompt config (Py.strip line)) as (E1 & E2 & E3).
  match goal with
  | |- context [init provider' model' interactive' ?w] =>
      by_wp (init provider' model' interactive') w
  end.
  repeat wp_step. rewrite ?E1, ?E2, ?E3. unfold classify.
  destruct (Py.startswith (Py.strip line) "sk-ant-");
    cbn [Py.truthy]; wp_go; leaf.
Qed.

(** X9. A blank line typed at the prompt is accepted: the run goes on with
    [openai] and stores the empty credential; but the empty credential does
    not count later, and a later fresh non-interactive process reading that
    configuration raises the configuration error. *)
Theorem blank_credential_fails_next_time
    (config : gmap string string) (fs fs' : gmap string (list string))
    (line : string) (rest typed' : list string) (on_tty on_tty' : bool)
    (provider model provider' model' : option string) :
  prompt_reached provider config true = true ->
  Py.all_space line = true ->
  Py.truthy provider' = false ->
  let w1 := world_of (init provider model true
                           (fresh_world config fs (line :: rest) on_tty)) in
  let r' := init provider' model' false
                 (fresh_world (config_store w1) fs' typed' on_tty') in
  init_llm_calls (trace w1) = ["openai"]
  /\ config_store w1 !! "env.OPENAI_API_KEY" = Some ""
  /\ outcome r'
     = Raise (ValueError "No API key found, couldn't auto-detect provider").
Proof.
  intros Hreach Hblank Hp' w1 r'. subst r' w1.
  destruct (init_prompt_facts config fs line rest on_tty provider model Hreach)
    as (_ & Hcalls & Hstore).
  destruct (prompt_reached_true _ _ _ Hreach) as (_ & Hcfg & Hoa & Han & _).
  rewrite Hcalls, Hstore. rewrite (strip_all_space line Hblank).
  destruct (get_env_after_prompt config "") as (E1 & E2 & E3).
  change (Py.startswith "" "sk-ant-") with false in E2, E3.
  change (classify "") with ("openai", "env.OPENAI_API_KEY") in *.
  cbn [fst snd] in *.
  split; [reflexivity|]. split; [apply lookup_insert_eq|].
  match goal with
  | |- context [init provider' model' false ?w] =>
      by_wp (init provider' model' false) w
  end.
  repeat wp_step. rewrite ?E1, ?E2, ?E3. cbn [Py.truthy Py.str_truthy].
  wp_go; leaf.
Qed.

(** ** Further properties of the history *)

(** X10. The history right after an interactive [init] in a fresh process:
    the lines loaded from the history file (or the examples), preceded by
    the line typed at the credential prompt exactly when the prompt ran on a
    terminal and the line is not empty.  Without a terminal, or when
    the provider is resolved without the prompt, nothing typed is in the
    history. *)
Theorem init_history_after_startup
    (config : gmap string string) (fs : gmap string (list string))
    (line : string) (rest : list string) (on_tty : bool)
    (provider model : option string) :
  let w := fresh_world config fs (line :: rest) on_tty in
  let r := init provider model true w in
  outcome r = Ok tt
  /\ history (readline (world_of r))
     = (if prompt_reached provider config true && on_tty && Py.str_truthy line
        then [line] else [])
       ++ loaded_lines w.
Proof.
  intros w r. subst r w.
  by_wp (init provider model true)
        (fresh_world config fs (line :: rest) on_tty).
  unfold prompt_reached, loaded_lines.
  wp_go; unfold Readline.auto_add; cbn;
    rewrite ?bool_decide_eq_false_2 by discriminate;
    destruct on_tty, (Py.str_truthy line), (fs !! history_file);
    split; reflexivity.
Qed.



(** ** The end of a run *)


(** X14. What [init] prints in a fresh process: nothing when the provider
    comes from the argument or from [PROVIDER]; the one line announcing the
    provider when it is detected from a stored credential; the three texts
    of the credential prompt when it prompts; nothing when it fails. *)
Theorem init_printed_output
    (config : gmap string string) (fs : gmap string (list string))
    (line : string) (rest : list string) (on_tty : bool)
    (provider model : option string) (interactive : bool) :
  let r := init provider model interactive
                (fresh_world config fs (line :: rest) on_tty) in
  printed (trace (world_of r))
  = if Py.truthy provider then []
    else if Py.truthy (get_env config "PROVIDER") then []
    else if Py.truthy (get_env config "OPENAI_API_KEY")
    then ["Found OpenAI API key, using OpenAI provider"]
    else if Py.truthy (get_env config "ANTHROPIC_API_KEY")
    then ["Found Anthropic API key, using Anthropic provider"]
    else if interactive
    then printed (prompt_events line)
    else [].
Proof.
  intros r. subst r.
  by_wp (init provider model interactive)
        (fresh_world config fs (line :: rest) on_tty).
  wp_go; unfold printed; leaf.
Qed.

End Bootstrap.

(** ** Logging *)

(** X13. Only the first [init_logging] of a process chooses the level of the
    root logger: called twice on a root logger without handlers, the level
    is DEBUG or INFO as the first call's [verbose] says, whatever the second
    call asks; [httpx] is at WARNING, and no other logger's level is
    touched. *)
Theorem init_logging_first_call_wins
    (s : Logging.State) (verbose1 verbose2 : bool) :
  Logging.root_handlers s = 0 ->
  let s2 := init_logging verbose2 (init_logging verbose1 s) in
  Logging.root_level s2 = (if verbose1 then Logging.DEBUG else Logging.INFO)
  /\ Logging.logger_levels s2 !! "httpx" = Some Logging.WARNING
  /\ forall name, name <> "httpx" ->
       Logging.logger_levels s2 !! name = Logging.logger_levels s !! name.
Proof.
  intros Hroot s2. subst s2.
  unfold init_logging, Logging.basicConfig, Logging.setLevel.
  rewrite Hroot. cbn.
  split; [reflexivity|]. split; [apply lookup_insert_eq|].
  intros name Hname.
  rewrite !lookup_insert_ne by congruence. reflexivity.
Qed.

(** ** Runs on concrete inputs *)

Section Runs.

Import Example.

Let init := init config_path history_file recommended_model.
Let ask_for_api_key := ask_for_api_key config_path.
Let _load_readline_history := _load_readline_history history_file.

(** C1, counterexample. The explicit provider is supplied as the empty
    string and the configuration says [PROVIDER = azure]: the provider set
    up is [azure], not the argument supplied. *)
Lemma provider_precedence_counterexample :
  let config : gmap string string := {["env.PROVIDER" := "azure"]} in
  let r := init (Some "") None false (fresh_world config ∅ [] false) in
  init_llm_calls (trace (world_of r)) = ["azure"]
  /\ claimed_provider (Some "") config false "openai" = Some ""
  /\ llm_provider (world_of r)
     <> claimed_provider (Some "") config false "openai".
Proof. vm_compute. repeat split. discriminate. Qed.

(** C3, the failing run. A fresh process on a terminal, nothing
    configured, no history file; [init(None, None, True)] prompts and the
    user types an Anthropic key.  The key is stored in the configuration,
    and it is also the first entry of the readline history, before the
    examples; at exit it is written to the history file. *)
Theorem prompt_credential_reaches_history :
  let r := init None None true (fresh_world ∅ ∅ ["sk-ant-abc123"] true) in
  outcome r = Ok tt
  /\ config_store (world_of r) !! "env.ANTHROPIC_API_KEY"
     = Some "sk-ant-abc123"
  /\ history (readline (world_of r))
     = "sk-ant-abc123" :: history_examples
  /\ files (run_atexit (world_of r)) !! history_file
     = Some ("sk-ant-abc123" :: history_examples).
Proof. vm_compute. repeat split. Qed.

(** C4, witness. *)
Lemma init_fails_without_provider_witness :
  outcome (init None None false (fresh_world ∅ ∅ [] false))
  = Raise (ValueError "No API key found, couldn't auto-detect provider").
Proof.
  apply (init_fails_without_provider config_path history_file
           recommended_model (fresh_world ∅ ∅ [] false) None None);
    reflexivity.
Defined.

(** C5, counterexample. The line typed starts with a space, so it does not
    start with [sk-ant-]; it is classified as Anthropic all the same and
    nothing is stored under the OpenAI key. *)
Lemma classification_counterexample :
  let line := " sk-ant-abc123" in
  let r := ask_for_api_key (fresh_world ∅ ∅ [line] true) in
  Py.startswith line "sk-ant-" = false
  /\ outcome r = Ok ("anthropic", "sk-ant-abc123")
  /\ config_store (world_of r) !! "env.ANTHROPIC_API_KEY"
     = Some "sk-ant-abc123"
  /\ config_store (world_of r) !! "env.OPENAI_API_KEY" = None.
Proof. vm_compute. repeat split. Qed.

(** C5, witness. *)
Lemma ask_for_api_key_classifies_stripped_witness :
  outcome (ask_for_api_key (fresh_world ∅ ∅ [" sk-ant-abc123"] true))
  = Ok ("anthropic", "sk-ant-abc123").
Proof.
  apply (ask_for_api_key_classifies_stripped config_path
           (fresh_world ∅ ∅ [" sk-ant-abc123"] true) " sk-ant-abc123" []
           eq_refl).
Defined.

(** C6, counterexample. The line typed has blanks around the key; what is
    returned and stored is the key without them, not the line as read. *)
Lemma credential_as_read_counterexample :
  let line := "  sk-abc  " in
  let r := ask_for_api_key (fresh_world ∅ ∅ [line] true) in
  outcome r = Ok ("openai", "sk-abc")
  /\ config_store (world_of r) !! "env.OPENAI_API_KEY" = Some "sk-abc"
  /\ "sk-abc" <> line.
Proof. vm_compute. repeat split. discriminate. Qed.

(** C6, witness. *)
Lemma ask_for_api_key_single_stripped_line_witness :
  stdin (world_of (ask_for_api_key (fresh_world ∅ ∅ ["  sk-abc  "] true)))
  = [].
Proof.
  apply (ask_for_api_key_single_stripped_line config_path
           (fresh_world ∅ ∅ ["  sk-abc  "] true) "  sk-abc  " [] eq_refl).
Defined.

(** C7, counterexample. The explicit model is supplied as the empty string
    and the configuration says [MODEL = gpt-3.5-turbo]: the model selected
    is the configured one, not the argument supplied. *)
Lemma model_precedence_counterexample :
  let config : gmap string string := {["env.MODEL" := "gpt-3.5-turbo"]} in
  let r := init (Some "openai") (Some "") false
                (fresh_world config ∅ [] false) in
  default_model (world_of r) = Some "gpt-3.5-turbo"
  /\ claimed_model (Some "") config (recommended_model "openai") = ""
  /\ default_model (world_of r)
     <> Some (claimed_model (Some "") config (recommended_model "openai")).
Proof. vm_compute. repeat split. discriminate. Qed.

(** C7, witness. The provider [openai] of the closed set, no model given
    and none configured: the recommended default is selected. *)
Lemma init_model_precedence_witness :
  default_model (world_of (init (Some "openai") None false
                                (fresh_world ∅ ∅ [] false)))
  = Some "gpt-4-turbo".
Proof.
  exact (proj2 (proj2
           (init_model_precedence config_path history_file
              recommended_model ∅ ∅ [] false (Some "openai") None false
              "openai" (or_introl eq_refl) eq_refl))).
Defined.

(** C8, counterexample. No history file; the history is initialised and
    150 entries are recorded: the history in memory then holds 156 lines,
    the six examples and all 150 entries. *)
Lemma history_cap_counterexample :
  let w1 := world_of (_load_readline_history (fresh_world ∅ ∅ [] true)) in
  let w2 := world_of (record_entries (entries 150) w1) in
  length (history (readline w2)) = 156
  /\ ~ length (history (readline w2)) <= 100.
Proof. vm_compute. split; [reflexivity | lia]. Qed.

(** C8, witness. *)
Lemma history_file_capped_at_exit_witness :
  let w1 := world_of (_load_readline_history (fresh_world ∅ ∅ [] true)) in
  let w2 := world_of (record_entries (entries 150) w1) in
  files (run_atexit w2) !! history_file = Some (drop 50 (entries 150)).
Proof.
  exact (proj2 (proj2 (proj2
           (history_file_capped_at_exit history_file
              (fresh_world ∅ ∅ [] true) (entries 150)))) eq_refl).
Defined.

(** C9, witness. *)
Lemma load_history_seeds_examples_witness :
  history (readline (world_of
                       (_load_readline_history (fresh_world ∅ ∅ [] true))))
  = history_examples.
Proof.
  exact (proj2 (proj1 (proj2
           (load_history_seeds_examples history_file
              (fresh_world ∅ ∅ [] true))) eq_refl) eq_refl).
Defined.

(** C10, witness. A provider outside [PROVIDERS] is adopted. *)
Lemma init_adopts_any_provider_witness :
  ~ In "bogus" PROVIDERS
  /\ init_llm_calls
       (trace (world_of (init (Some "bogus") None false
                              (fresh_world ∅ ∅ [] false))))
     = ["bogus"].
Proof.
  split.
  - cbn. intros [H|[H|[H|[H|[]]]]]; discriminate H.
  - exact (proj1 (proj2 (proj1
             (init_adopts_any_provider config_path history_file
                recommended_model ∅ ∅ [] false None false "bogus"
                eq_refl)))).
Defined.

(** Witnesses of the further properties. *)

Lemma init_prompt_at_end_of_input_witness :
  outcome (init None None true (fresh_world ∅ ∅ [] true)) = Raise EOFError.
Proof.
  exact (proj1 (init_prompt_at_end_of_input config_path history_file
                  recommended_model ∅ ∅ true None None eq_refl)).
Defined.

Lemma init_retry_after_failure_does_nothing_witness :
  llm_provider
    (world_of (init (Some "openai") None false
                 (world_of (init None None false
                                 (fresh_world ∅ ∅ [] false)))))
  = None.
Proof.
  exact (proj1 (proj2
           (init_retry_after_failure_does_nothing config_path history_file
              recommended_model (fresh_world ∅ ∅ [] false) None None
              (Some "openai") None false
              eq_refl eq_refl eq_refl eq_refl eq_refl))).
Defined.

Lemma ask_for_api_key_stores_trimmed_witness :
  exists provider key,
    outcome (ask_for_api_key (fresh_world ∅ ∅ ["  sk-abc  "] true))
    = Ok (provider, key)
    /\ config_store
         (world_of (ask_for_api_key (fresh_world ∅ ∅ ["  sk-abc  "] true)))
         !! (classify key).2 = Some key
    /\ starts_with_space key = false
    /\ ends_with_space key = false.
Proof.
  exact (ask_for_api_key_stores_trimmed config_path
           (fresh_world ∅ ∅ ["  sk-abc  "] true) "  sk-abc  " [] eq_refl).
Defined.

Lemma ask_for_api_key_writes_one_key_witness :
  config_store
    (world_of (ask_for_api_key
                 (fresh_world {["env.MODEL" := "gpt-4"]} ∅ ["sk-abc"] true)))
    !! "env.MODEL"
  = Some "gpt-4".
Proof.
  refine (eq_trans
            (ask_for_api_key_writes_one_key config_path
               (fresh_world {["env.MODEL" := "gpt-4"]} ∅ ["sk-abc"] true)
               "sk-abc" [] "env.MODEL" eq_refl _)
            eq_refl).
  discriminate.
Defined.

Lemma prompted_provider_is_detected_next_time_witness :
  let w1 := world_of (init None None true
                           (fresh_world ∅ ∅ ["sk-ant-abc123"] true)) in
  init_llm_calls
    (trace (world_of (init None None false
                           (fresh_world (config_store w1) ∅ [] false))))
  = init_llm_calls (trace w1).
Proof.
  exact (proj1 (proj2
           (prompted_provider_is_detected_next_time config_path history_file
              recommended_model ∅ ∅ ∅ "sk-ant-abc123" [] [] true false
              None None None None false eq_refl eq_refl eq_refl))).
Defined.

Lemma blank_credential_fails_next_time_witness :
  let w1 := world_of (init None None true (fresh_world ∅ ∅ ["  "] true)) in
  outcome (init None None false (fresh_world (config_store w1) ∅ [] false))
  = Raise (ValueError "No API key found, couldn't auto-detect provider").
Proof.
  exact (proj2 (proj2
           (blank_credential_fails_next_time config_path history_file
              recommended_model ∅ ∅ ∅ "  " [] [] true false
              None None None None eq_refl eq_refl eq_refl))).
Defined.


Lemma init_logging_first_call_wins_witness :
  Logging.root_level (init_logging true (init_logging false Logging.initial))
  = Logging.INFO.
Proof.
  exact (proj1 (init_logging_first_call_wins Logging.initial false true
                  eq_refl)).
Defined.

Lemma init_prompt_line_in_history_witness :
  files (run_atexit (world_of (init None None true
                                    (fresh_world ∅ ∅ ["sk-abc"] true))))
    !! history_file
  = Some (Readline.keep_last 100 ("sk-abc" :: history_examples)).
Proof.
  exact (proj2 (proj2
           (init_prompt_line_in_history config_path history_file
              recommended_model ∅ ∅ "sk-abc" [] None
              eq_refl eq_refl eq_refl eq_refl))).
Defined.

End Runs.
